(** * GM1356 sound level meter logger (main.go): embedding and verification

    The program polls a GM1356 USB sound level meter: it writes an 8-byte
    capture command, reads an 8-byte response into a buffer, decodes the
    response and prints the reading as JSON, optionally appending it to a
    CSV file.

    Modelling choices, following the Go source:
    - a [byte] is [Init.Byte.byte]; its numeric value is [byte_val];
    - [float64] is [spec_float] at precision 53 and maximal exponent 1024
      (IEEE 754 binary64, round to nearest even);
    - Go's [error] is [option string]: [None] is [nil], [Some msg] carries
      the text of [err.Error()];
    - a slice index out of range is a runtime panic: [None];
    - the device, the clock and the stop channel are the environment: every
      call that asks them something takes the answer as an argument;
    - output is a list of events in the order the program produces them;
      the CSV file lives in a file system [gmap string (list (list string))]
      whose values are the rows of each file. *)

From Stdlib Require Import ZArith NArith List String Ascii Bool Lia.
From Stdlib Require Import SpecFloat Strings.Byte DecimalString.
From stdpp Require Import base option list gmap strings.
Import ListNotations.

Local Open Scope Z_scope.

(** ** Bytes and text helpers *)

Definition byte_val (b : byte) : Z := Z.of_N (Byte.to_N b).

(** The 256 byte values, in increasing order. *)
Definition all_bytes : list byte :=
  Eval vm_compute in
    flat_map (fun n => match Byte.of_N (N.of_nat n) with
                       | Some b => [b]
                       | None => []
                       end) (seq 0 256).

(** [%d] of an integer. *)
Definition fmt_d (z : Z) : string := NilZero.string_of_int (Z.to_int z).

(** One hexadecimal digit, upper case. *)
Definition hex_digit (n : Z) : ascii :=
  match n with
  | 0 => "0" | 1 => "1" | 2 => "2" | 3 => "3" | 4 => "4" | 5 => "5"
  | 6 => "6" | 7 => "7" | 8 => "8" | 9 => "9" | 10 => "A" | 11 => "B"
  | 12 => "C" | 13 => "D" | 14 => "E" | _ => "F"
  end%char.

(** [%X] of a byte slice: two upper-case hexadecimal digits per byte. *)
Fixpoint fmt_X (bs : list byte) : string :=
  match bs with
  | [] => ""
  | b :: rest =>
      String (hex_digit (Z.shiftr (byte_val b) 4))
        (String (hex_digit (Z.land (byte_val b) 0x0F)) (fmt_X rest))
  end.

(** [%v] of a byte slice: the decimal values between brackets. *)
Definition fmt_v_bytes (bs : list byte) : string :=
  "[" +:+ String.concat " " (map (fun b => fmt_d (byte_val b)) bs) +:+ "]".

(** [err != nil] *)
Definition not_nil (err : option string) : bool :=
  match err with
  | Some _ => true
  | None => false
  end.

(** [%v] of an error value. *)
Definition fmt_v_err (err : option string) : string :=
  match err with
  | Some msg => msg
  | None => "<nil>"
  end.

(** ** float64 *)

Definition prec : Z := 53.
Definition emax : Z := 1024.

(** Conversion of an integer to float64 (exact below 2^53). *)
Definition f64_of_Z (z : Z) : spec_float := binary_normalize prec emax z 0 false.

Definition f64_div : spec_float -> spec_float -> spec_float := SFdiv prec emax.

(** The constant [10.0]. *)
Definition f64_ten : spec_float := f64_of_Z 10.

(** The value [m * 2^e] times ten, rounded to the nearest integer, ties to
    even: the digits [%.1f] prints. *)
Definition tenths_of (m : positive) (e : Z) : Z :=
  let n := Z.pos m * 10 in
  match e with
  | Z0 => n
  | Zpos _ => Z.shiftl n e
  | Zneg k =>
      let q := Z.shiftr n (Z.pos k) in
      let r := n - Z.shiftl q (Z.pos k) in
      match (Z.shiftl r 1 ?= Z.shiftl 1 (Z.pos k))%Z with
      | Lt => q
      | Gt => q + 1
      | Eq => if Z.even q then q else q + 1
      end
  end.

Definition fmt_tenths (t : Z) : string :=
  fmt_d (t / 10) +:+ "." +:+ fmt_d (t mod 10).

(** [fmt.Sprintf("%.1f", x)]: correctly rounded, one fractional digit. *)
Definition fmt_f1 (x : spec_float) : string :=
  match x with
  | S754_zero s => (if s then "-" else "") +:+ "0.0"
  | S754_finite s m e => (if s then "-" else "") +:+ fmt_tenths (tenths_of m e)
  | S754_infinity s => if s then "-Inf" else "+Inf"
  | S754_nan => "NaN"
  end.

Definition is_digit (c : ascii) : bool :=
  let n := Z.of_nat (nat_of_ascii c) in ((48 <=? n) && (n <=? 57))%Z.

(** Text of the shape [d...d.d]: at least one integer digit, a point and
    exactly one fractional digit. *)
Fixpoint one_fraction_digit (s : string) : bool :=
  match s with
  | String c (String "." (String d EmptyString)) => is_digit c && is_digit d
  | String c rest => is_digit c && one_fraction_digit rest
  | EmptyString => false
  end.

(** ** The clock *)

(** A [time.Time] in UTC, by its calendar fields. *)
Record Time := mkTime {
  t_year : Z; t_month : Z; t_day : Z;
  t_hour : Z; t_minute : Z; t_second : Z
}.

(** Go's [appendInt]: sign, then the digits padded with zeros to [width]. *)
Definition appendInt (x : Z) (width : nat) : string :=
  let digits := fmt_d (Z.abs x) in
  let pad := string_of_list_ascii
               (repeat "0"%char (width - String.length digits)) in
  (if (x <? 0)%Z then "-" else "") +:+ pad +:+ digits.

(** [t.Format("2006-01-02 15:04:05 UTC")]. *)
Definition format_timestamp (t : Time) : string :=
  appendInt (t_year t) 4 +:+ "-" +:+ appendInt (t_month t) 2 +:+ "-" +:+
  appendInt (t_day t) 2 +:+ " " +:+ appendInt (t_hour t) 2 +:+ ":" +:+
  appendInt (t_minute t) 2 +:+ ":" +:+ appendInt (t_second t) 2 +:+ " UTC".

(** A calendar time as the clock can deliver it (years of four digits). *)
Definition wf_time (t : Time) : Prop :=
  0 <= t_year t <= 9999 /\ 1 <= t_month t <= 12 /\ 1 <= t_day t <= 31 /\
  0 <= t_hour t <= 23 /\ 0 <= t_minute t <= 59 /\ 0 <= t_second t <= 59.

(** ** Protocol constants and the reading *)

Definition vendorID : Z := 25789.
Definition productID : Z := 29923.

Definition commandCapture : list byte :=
  [xb3; x00; x00; x00; x00; x00; x00; x00]%byte.

Record DecibelReading := mkReading {
  Timestamp : string;
  Measured : spec_float;
  Mode : string;
  FreqMode : string;
  Range : string
}.

(** [rangeMap], keyed by the numeric value of the byte. *)
Definition rangeMap : gmap Z string :=
  {[ 0x0 := "30-130"; 0x1 := "30-80"; 0x2 := "50-100";
     0x3 := "60-110"; 0x4 := "80-130" ]}.

(** ** Protocol codec *)

Definition parseMode (b : byte) : string :=
  if negb (Z.land (byte_val b) 0x40 =? 0) then "fast" else "slow".

Definition parseFreqMode (b : byte) : string :=
  if negb (Z.land (byte_val b) 0x10 =? 0) || negb (Z.land (byte_val b) 0x80 =? 0)
  then "dBC" else "dBA".

Definition parseRange (b : byte) : string :=
  match rangeMap !! Z.land (byte_val b) 0x0F with
  | Some rangeStr => rangeStr
  | None => "unknown"
  end.

(** [(uint16(hi) << 8) | uint16(lo)], with the 16-bit wrap of the shift. *)
Definition raw_u16 (hi lo : byte) : Z :=
  Z.lor (Z.shiftl (byte_val hi) 8 mod 2 ^ 16) (byte_val lo).

Definition measured_of (hi lo : byte) : spec_float :=
  f64_div (f64_of_Z (raw_u16 hi lo)) f64_ten.

(** [parseDecibelData]: [now] is the answer of [time.Now().UTC()]; indexing
    a slice shorter than three bytes panics. *)
Definition parseDecibelData (now : Time) (buf : list byte) : option DecibelReading :=
  b0 ← buf !! 0%nat;
  b1 ← buf !! 1%nat;
  b2 ← buf !! 2%nat;
  Some {| Measured := measured_of b0 b1;
          Mode := parseMode b2;
          FreqMode := parseFreqMode b2;
          Range := parseRange b2;
          Timestamp := format_timestamp now |}.

(** ** The device, the output and the file system *)

(** The answer of [device.Read(p)]: either a report, copied to the start of
    [p] and cut at its length, or an error that leaves [p] as it was. *)
Inductive ReadResult :=
| ReadOk (data : list byte)
| ReadErr (n : Z) (msg : string).

Definition read_buf (p : list byte) (r : ReadResult) : list byte :=
  match r with
  | ReadOk data => let d := take (length p) data in d ++ drop (length d) p
  | ReadErr _ _ => p
  end.

Definition read_n (p : list byte) (r : ReadResult) : Z :=
  match r with
  | ReadOk data => Z.of_nat (length (take (length p) data))
  | ReadErr n _ => n
  end.

Definition read_err (r : ReadResult) : option string :=
  match r with
  | ReadOk _ => None
  | ReadErr _ msg => Some msg
  end.

(** One request and response: the answer of [device.Write] (count and
    error) and the answer of the [device.Read] that follows, if any. *)
Record Exchange := mkExchange {
  ex_write_n : Z;
  ex_write_err : option string;
  ex_read : ReadResult
}.

Inductive Event :=
| Sleep (ms : Z)                      (* time.Sleep *)
| Printed (line : string)             (* fmt.Printf, fmt.Println *)
| PrintedJSON (data : DecibelReading) (* fmt.Println(string(jsonData)) *)
| Logged (line : string)              (* log.Printf *)
| Fatal (line : string).              (* log.Fatalf: the process exits *)

(** Files by path; a file is the list of its CSV rows. *)
Abbreviation FileSys := (gmap string (list (list string))).

Definition csvHeader : list string :=
  ["timestamp"; "measured"; "mode"; "freqMode"; "range"].

(** [writer.Write(row); writer.Flush()] on a writer of the file [path]
    opened for appending. *)
Definition csv_write_flush (path : string) (row : list string) (fs : FileSys) : FileSys :=
  alter (fun rows => rows ++ [row]) path fs.

(** [os.Stat] answers [nil] for a file that is there. *)
Inductive StatErr := ErrNotExist | ErrOther (msg : string).

Definition os_Stat (fs : FileSys) (filename : string) : option StatErr :=
  match fs !! filename with
  | Some _ => None
  | None => Some ErrNotExist
  end.

Definition os_IsNotExist (err : option StatErr) : bool :=
  match err with
  | Some ErrNotExist => true
  | _ => false
  end.

Definition fileExists (fs : FileSys) (filename : string) : bool :=
  negb (os_IsNotExist (os_Stat fs filename)).

(** [os.OpenFile(filename, O_APPEND|O_CREATE|O_WRONLY, 0644)]; [open_err] is
    the answer of the operating system. A missing file is created empty. *)
Definition os_OpenFile (open_err : option string) (filename : string) (fs : FileSys)
  : FileSys * option string :=
  match open_err with
  | Some e => (fs, Some e)
  | None =>
      match fs !! filename with
      | Some _ => (fs, None)
      | None => (<[filename := []]> fs, None)
      end
  end.

(** [setupCSVLog]: the writer is the path it appends to. *)
Definition setupCSVLog (open_err : option string) (filename : string) (fs : FileSys)
  : FileSys * (string + string) :=
  let fileExists := fileExists fs filename in
  match os_OpenFile open_err filename fs with
  | (fs, Some err) => (fs, inl err)
  | (fs, None) =>
      let fs := if negb fileExists then csv_write_flush filename csvHeader fs else fs in
      (fs, inr filename)
  end.

(** ** Commands and the one-shot probe *)

Definition sendCommand (n : Z) (err : option string) (command : list byte)
  : option string * list Event :=
  if not_nil err || negb (n =? 8)
  then (Some ("failed to send command (sent " +:+ fmt_d n +:+ " bytes): "
              +:+ fmt_v_err err), [])
  else (None, [Sleep 500; Printed ("Command sent: " +:+ fmt_X command)]).

(** [make([]byte, 8)] *)
Definition make_buf : list byte := repeat x00%byte 8.

Record ModeProbe := mkProbe {
  pr_mode : string;
  pr_freqMode : string;
  pr_range : string;
  pr_err : option string
}.

Definition readCurrentMode (ex : Exchange) : option (ModeProbe * list Event) :=
  let buf := make_buf in
  match sendCommand (ex_write_n ex) (ex_write_err ex) commandCapture with
  | (Some err, evs) =>
      Some (mkProbe "unknown" "unknown" "unknown"
              (Some ("failed to send initial capture command: " +:+ err)), evs)
  | (None, evs) =>
      let n := read_n buf (ex_read ex) in
      let err := read_err (ex_read ex) in
      let buf := read_buf buf (ex_read ex) in
      if not_nil err || (n <? 6)
      then Some (mkProbe "unknown" "unknown" "unknown"
                   (Some ("failed to read initial data: " +:+ fmt_v_err err)), evs)
      else
        b2 ← buf !! 2%nat;
        Some (mkProbe (parseMode b2) (parseFreqMode b2) (parseRange b2) None, evs)
  end.

(** ** The polling loop *)

(** What the environment answers during one pass of the loop: whether the
    stop channel delivers, the device exchange, and the clock. *)
Record Tick := mkTick {
  tick_stop : bool;
  tick_io : Exchange;
  tick_now : Time
}.

Definition csv_row (data : DecibelReading) : list string :=
  [Timestamp data; fmt_f1 (Measured data); Mode data; FreqMode data; Range data].

(** The [default] branch of the [select]: one pass over the device. *)
Definition iteration (csvWriter : option string) (t : Tick) (buf : list byte) (fs : FileSys)
  : option (list byte * FileSys * list Event) :=
  let ex := tick_io t in
  match sendCommand (ex_write_n ex) (ex_write_err ex) commandCapture with
  | (Some err, evs) =>
      Some (buf, fs,
            Sleep 500 :: evs ++ [Logged ("Error sending capture command: " +:+ err)])
  | (None, evs) =>
      let n := read_n buf (ex_read ex) in
      let buf' := read_buf buf (ex_read ex) in
      match read_err (ex_read ex) with
      | Some err =>
          Some (buf', fs, Sleep 500 :: evs ++ [Logged ("Error reading data: " +:+ err)])
      | None =>
          if 0 <? n then
            data ← parseDecibelData (tick_now t) buf';
            let out := [Printed ("Raw Data Read (" +:+ fmt_d n +:+ " bytes): "
                                 +:+ fmt_v_bytes buf');
                        PrintedJSON data] in
            let fs' := match csvWriter with
                       | Some w => csv_write_flush w (csv_row data) fs
                       | None => fs
                       end in
            Some (buf', fs', Sleep 500 :: evs ++ out)
          else Some (buf', fs, Sleep 500 :: evs)
      end
  end.

Record Run := mkRun {
  run_stopped : bool;        (* the loop returned on the stop channel *)
  run_buf : list byte;
  run_fs : FileSys;
  run_events : list Event
}.

Definition prepend_events (evs : list Event) (r : Run) : Run :=
  mkRun (run_stopped r) (run_buf r) (run_fs r) (evs ++ run_events r).

(** The loop over the passes the environment lets it make; [None] is a
    runtime panic. *)
Fixpoint poll (csvWriter : option string) (ticks : list Tick) (buf : list byte)
  (fs : FileSys) : option Run :=
  match ticks with
  | [] => Some (mkRun false buf fs [])
  | t :: rest =>
      if tick_stop t then Some (mkRun true buf fs [])
      else
        '(buf', fs', evs) ← iteration csvWriter t buf fs;
        r ← poll csvWriter rest buf' fs';
        Some (prepend_events evs r)
  end.

Definition readDecibelData (csvWriter : option string) (ticks : list Tick) (fs : FileSys)
  : option Run :=
  poll csvWriter ticks make_buf fs.

(** The readings printed as JSON, in order. *)
Definition published (evs : list Event) : list DecibelReading :=
  omap (fun e => match e with PrintedJSON d => Some d | _ => None end) evs.

(** The diagnostics of [log.Printf], in order. *)
Definition diagnostics (evs : list Event) : list string :=
  omap (fun e => match e with Logged s => Some s | _ => None end) evs.

(** ** The program *)

Record Env := mkEnv {
  env_init_err : option string;      (* hid.Init *)
  env_open_err : option string;      (* hid.OpenFirst *)
  env_openfile_err : option string;  (* os.OpenFile *)
  env_probe : Exchange;              (* the exchange of readCurrentMode *)
  env_ticks : list Tick              (* the passes of the worker *)
}.

(** [main] up to the end of the worker; the process ends with the last
    pass. *)
Definition main (logFileName : string) (env : Env) (fs : FileSys)
  : option (FileSys * list Event) :=
  match env_init_err env with
  | Some err => Some (fs, [Fatal ("Failed to initialize HIDAPI: " +:+ err)])
  | None =>
  match env_open_err env with
  | Some err => Some (fs, [Fatal ("Failed to open device: " +:+ err)])
  | None =>
      let ev0 := [Printed "Connected to GM1356 Decibel Meter"] in
      let '(fs1, csv) :=
        if bool_decide (logFileName = "") then (fs, inr None)
        else match setupCSVLog (env_openfile_err env) logFileName fs with
             | (fs1, inl err) => (fs1, inl err)
             | (fs1, inr w) => (fs1, inr (Some w))
             end in
      match csv with
      | inl err => Some (fs1, ev0 ++ [Fatal ("Failed to open log file: " +:+ err)])
      | inr csvWriter =>
          '(probe, ev1) ← readCurrentMode (env_probe env);
          let ev2 :=
            match pr_err probe with
            | Some err =>
                [Logged ("Warning: Failed to read current mode. Defaulting to unknown. Error: "
                         +:+ err)]
            | None =>
                [Printed ("Current Mode: " +:+ pr_mode probe +:+ ", Frequency Mode: "
                          +:+ pr_freqMode probe +:+ ", Range: " +:+ pr_range probe)]
            end in
          r ← readDecibelData csvWriter (env_ticks env) fs1;
          Some (run_fs r, ev0 ++ ev1 ++ ev2 ++ run_events r)
      end
  end
  end.

(** ** Definitions used to state the properties *)

(** The big-endian value of the two bytes, written arithmetically. *)
Definition be16 (hi lo : byte) : Z := 256 * byte_val hi + byte_val lo.

(** Ten times a float64, rounded to the nearest integer. *)
Definition f64_tenths (x : spec_float) : option Z :=
  match x with
  | S754_zero _ => Some 0
  | S754_finite s m e => Some (if s then - tenths_of m e else tenths_of m e)
  | _ => None
  end.

(** [x] is a binary64 number [m * 2^e] with a full 53-bit mantissa that
    lies within half a unit in the last place of [raw / 10]: the float64
    nearest to that decimal. *)
Definition nearest_to_tenths (raw : Z) (x : spec_float) : bool :=
  match x with
  | S754_zero false => raw =? 0
  | S754_finite false m e =>
      (e <? 0) && (2 ^ 52 <=? Z.pos m) && (Z.pos m <? 2 ^ 53)
      && (Z.abs (10 * Z.pos m - raw * 2 ^ (- e)) <=? 5)
  | _ => false
  end.

Definition measured_ok (hi lo : byte) : bool :=
  let raw := be16 hi lo in
  let x := measured_of hi lo in
  (raw_u16 hi lo =? raw)
  && nearest_to_tenths raw x
  && String.eqb (fmt_f1 x) (fmt_tenths raw)
  && one_fraction_digit (fmt_f1 x)
  && bool_decide (f64_tenths x = Some raw).

(** The range table, as the specification words it: by the value of the low
    nibble. *)
Definition range_label (nibble : Z) : string :=
  match nibble with
  | 0 => "30-130"
  | 1 => "30-80"
  | 2 => "50-100"
  | 3 => "60-110"
  | 4 => "80-130"
  | _ => "unknown"
  end.

(** The binary64 numbers 45.0 and 45.3 (0x4046800000000000 and
    0x4046A66666666666). *)
Definition f64_45_0 : spec_float := S754_finite false 6333186975989760 (-47).
Definition f64_45_3 : spec_float := S754_finite false 6375408222496358 (-47).

Definition clock_0 : Time := mkTime 2025 3 1 5 4 0.
Definition clock_1 : Time := mkTime 2025 3 1 5 4 1.
Definition frame_01C291 : list byte := [x01; xc2; x91; x00; x00; x00; x00; x00]%byte.

(** The write moved the whole command and reported no error. *)
Definition write_ok (ex : Exchange) : Prop :=
  ex_write_err ex = None /\ ex_write_n ex = 8.

(** The text of the error [sendCommand] returns. *)
Definition send_error (ex : Exchange) : string :=
  "failed to send command (sent " +:+ fmt_d (ex_write_n ex) +:+ " bytes): "
  +:+ fmt_v_err (ex_write_err ex).

(** What a successful [sendCommand] produces. *)
Definition sent_events : list Event :=
  [Sleep 500; Printed ("Command sent: " +:+ fmt_X commandCapture)].

(** The pass publishes: the command went out and the read returned at least
    one byte without error. *)
Definition publishes (t : Tick) (buf : list byte) : Prop :=
  write_ok (tick_io t) /\ read_err (ex_read (tick_io t)) = None /\
  0 < read_n buf (ex_read (tick_io t)).

(** The file system after one reading went to the CSV sink. *)
Definition log_row (csvWriter : option string) (data : DecibelReading) (fs : FileSys)
  : FileSys :=
  match csvWriter with
  | Some w => csv_write_flush w (csv_row data) fs
  | None => fs
  end.

Definition tick_3_bytes : Tick :=
  mkTick false (mkExchange 8 None (ReadOk [x01; xc2; x91]%byte)) clock_0.

(** Appending rows at the end of the file [path], if it is there. *)
Definition append_rows (path : string) (rows : list (list string)) (fs : FileSys)
  : FileSys :=
  alter (fun old => old ++ rows) path fs.

(** The file system after the readings of [evs] went to the CSV sink. *)
Definition logged (csvWriter : option string) (evs : list Event) (fs : FileSys)
  : FileSys :=
  match csvWriter with
  | Some w => append_rows w (map csv_row (published evs)) fs
  | None => fs
  end.

(** A reading as the decoder builds it from a clock reading and three
    bytes. *)
Definition decoded (d : DecibelReading) : Prop :=
  exists now b0 b1 b2,
    d = mkReading (format_timestamp now) (measured_of b0 b1)
          (parseMode b2) (parseFreqMode b2) (parseRange b2).

(** The events hold no reading and no diagnostic. *)
Definition quiet (evs : list Event) : Prop :=
  published evs = [] /\ diagnostics evs = [].

(** The program gets past its start-up: the HID library initialises, the
    device opens and the log file can be opened. *)
Definition starts (env : Env) : Prop :=
  env_init_err env = None /\ env_open_err env = None /\ env_openfile_err env = None.

Definition exchange_full : Exchange :=
  mkExchange 8 None (ReadOk [x01; x3a; x40; x00; x00; x00; x00; x00]%byte).

Definition tick_short_write : Tick :=
  mkTick false (mkExchange 3 None (ReadOk [])) clock_0.

Definition tick_empty_read : Tick :=
  mkTick false (mkExchange 8 None (ReadOk [])) clock_0.

Definition tick_full : Tick := mkTick false exchange_full clock_1.

Definition env_a : Env := mkEnv None None None exchange_full [tick_full; tick_3_bytes].
Definition env_b : Env := mkEnv None None None exchange_full [tick_empty_read; tick_full].

(** The milliseconds the events sleep. *)
Fixpoint slept (evs : list Event) : Z :=
  match evs with
  | [] => 0
  | Sleep ms :: rest => ms + slept rest
  | _ :: rest => slept rest
  end.

(** A reading whose fields lie in the sets the decoder can produce. *)
Definition in_domain (d : DecibelReading) : Prop :=
  In (Mode d) ["fast"; "slow"] /\
  In (FreqMode d) ["dBA"; "dBC"] /\
  In (Range d) ["30-130"; "30-80"; "50-100"; "60-110"; "80-130"; "unknown"] /\
  one_fraction_digit (fmt_f1 (Measured d)) = true /\
  exists raw, 0 <= raw <= 65535 /\ f64_tenths (Measured d) = Some raw.

(** [n] digits and nothing else. *)
Fixpoint digits_exactly (n : nat) (s : string) : bool :=
  match n, s with
  | O, EmptyString => true
  | S k, String c rest => is_digit c && digits_exactly k rest
  | _, _ => false
  end.

(** Text of the shape [dddd-dd-dd dd:dd:dd UTC]. *)
Definition timestamp_shaped (s : string) : bool :=
  match s with
  | String y1 (String y2 (String y3 (String y4 (String "-"
    (String m1 (String m2 (String "-"
    (String d1 (String d2 (String " "
    (String h1 (String h2 (String ":"
    (String n1 (String n2 (String ":"
    (String s1 (String s2 " UTC")))))))))))))))))) =>
      forallb is_digit [y1; y2; y3; y4; m1; m2; d1; d2; h1; h2; n1; n2; s1; s2]
  | _ => false
  end.

Definition env_with_probe (env : Env) (probe : Exchange) : Env :=
  mkEnv (env_init_err env) (env_open_err env) (env_openfile_err env) probe
    (env_ticks env).

Definition tick_1_byte : Tick :=
  mkTick false (mkExchange 8 None (ReadOk [x02]%byte)) clock_1.

Definition tick_stop_now : Tick := mkTick true exchange_full clock_1.

Definition env_no_file : Env :=
  mkEnv None None (Some "permission denied") exchange_full [tick_full].
(** * Verification *)

(** ** Bytes *)

Lemma all_bytes_complete (b : byte) : In b all_bytes.
Proof.
  assert (H : existsb (Byte.eqb b) all_bytes = true)
    by (destruct b; vm_compute; reflexivity).
  apply existsb_exists in H as (x & Hin & Heq).
  apply Byte.byte_dec_bl in Heq. now subst.
Qed.

Lemma forallb_bytes (P : byte -> bool) :
  forallb P all_bytes = true -> forall b, P b = true.
Proof.
  intros H b. apply (proj1 (forallb_forall P all_bytes) H), all_bytes_complete.
Qed.

Lemma forallb_bytes2 (P : byte -> byte -> bool) :
  forallb (fun hi => forallb (P hi) all_bytes) all_bytes = true ->
  forall hi lo, P hi lo = true.
Proof.
  intros H hi lo.
  apply (forallb_bytes (P hi)), (forallb_bytes (fun h => forallb (P h) all_bytes) H).
Qed.

Lemma byte_val_range (b : byte) : 0 <= byte_val b < 256.
Proof.
  unfold byte_val. pose proof (Byte.to_N_bounded b) as H. lia.
Qed.

(** ** The measured value *)

Lemma measured_ok_all :
  forallb (fun hi => forallb (measured_ok hi) all_bytes) all_bytes = true.
Proof. vm_compute. reflexivity. Qed.

Lemma measured_facts (hi lo : byte) :
  raw_u16 hi lo = be16 hi lo /\
  nearest_to_tenths (be16 hi lo) (measured_of hi lo) = true /\
  fmt_f1 (measured_of hi lo) = fmt_tenths (be16 hi lo) /\
  one_fraction_digit (fmt_f1 (measured_of hi lo)) = true /\
  f64_tenths (measured_of hi lo) = Some (be16 hi lo).
Proof.
  pose proof (forallb_bytes2 measured_ok measured_ok_all hi lo) as H.
  unfold measured_ok in H.
  apply andb_prop in H as [H H5]. apply andb_prop in H as [H H4].
  apply andb_prop in H as [H H3]. apply andb_prop in H as [H1 H2].
  apply Z.eqb_eq in H1. apply String.eqb_eq in H3.
  apply bool_decide_eq_true in H5. auto.
Qed.

Lemma be16_range (hi lo : byte) : 0 <= be16 hi lo < 65536.
Proof.
  unfold be16. pose proof (byte_val_range hi). pose proof (byte_val_range lo). lia.
Qed.

Lemma byte_val_inj (a b : byte) : byte_val a = byte_val b -> a = b.
Proof.
  unfold byte_val. intros H.
  assert (Hn : Byte.to_N a = Byte.to_N b) by lia.
  pose proof (Byte.of_to_N a) as Ha. rewrite Hn, Byte.of_to_N in Ha. congruence.
Qed.

Lemma be16_inj (hi lo hi' lo' : byte) :
  be16 hi lo = be16 hi' lo' -> hi = hi' /\ lo = lo'.
Proof.
  unfold be16. intros H.
  pose proof (byte_val_range hi). pose proof (byte_val_range lo).
  pose proof (byte_val_range hi'). pose proof (byte_val_range lo').
  split; apply byte_val_inj; lia.
Qed.

(** ** The status byte *)

Lemma parseMode_eq (b : byte) :
  parseMode b = if Z.testbit (byte_val b) 6 then "fast" else "slow".
Proof. destruct b; reflexivity. Qed.

Lemma parseFreqMode_eq (b : byte) :
  parseFreqMode b =
  if Z.testbit (byte_val b) 4 || Z.testbit (byte_val b) 7 then "dBC" else "dBA".
Proof. destruct b; reflexivity. Qed.

Lemma parseRange_eq (b : byte) :
  parseRange b = range_label (byte_val b mod 16).
Proof. destruct b; vm_compute; reflexivity. Qed.

(** ** The decoder *)

Lemma parseDecibelData_cons (now : Time) (b0 b1 b2 : byte) (rest : list byte) :
  parseDecibelData now (b0 :: b1 :: b2 :: rest) =
  Some (mkReading (format_timestamp now) (measured_of b0 b1)
          (parseMode b2) (parseFreqMode b2) (parseRange b2)).
Proof. reflexivity. Qed.

Lemma long_buffer (buf : list byte) :
  (3 <= length buf)%nat -> exists b0 b1 b2 rest, buf = b0 :: b1 :: b2 :: rest.
Proof.
  destruct buf as [|b0 [|b1 [|b2 rest]]]; simpl; intros H; try lia. eauto.
Qed.

Example f64_45_0_is_450_tenths : nearest_to_tenths 450 f64_45_0 = true.
Proof. reflexivity. Qed.

Example f64_45_3_is_453_tenths :
  nearest_to_tenths 453 f64_45_3 = true /\ fmt_f1 f64_45_3 = "45.3".
Proof. split; reflexivity. Qed.

(** C1, as the claim states it, fails: the frame [01 C2 91 ...] holds the raw
    value 0x01C2 = 450, so the decoded measurement is 45.0 and not 45.3. *)
Lemma frame_01C291_not_45_3 :
  exists r, parseDecibelData clock_0 frame_01C291 = Some r /\
            Measured r <> f64_45_3 /\ fmt_f1 (Measured r) = "45.0".
Proof.
  eexists. split; [reflexivity|]. split; [|reflexivity].
  vm_compute. discriminate.
Qed.

(** C1 (amended): every 8-byte frame that starts with [01 C2 91], decoded at
    any clock reading, yields measured = 45.0, mode = slow, freqMode = dBC and
    range = 30-80, with the formatted clock reading as the timestamp. *)
Theorem frame_01C291_decodes (now : Time) (b3 b4 b5 b6 b7 : byte) :
  parseDecibelData now [x01; xc2; x91; b3; b4; b5; b6; b7]%byte =
  Some {| Timestamp := format_timestamp now;
          Measured := f64_45_0;
          Mode := "slow";
          FreqMode := "dBC";
          Range := "30-80" |}.
Proof. reflexivity. Qed.

(** C2, as the claim states it, fails: the decoder reads the clock, so two
    decodes of one frame at different seconds differ in the timestamp. *)
Lemma decode_twice_differs :
  exists r1 r2,
    parseDecibelData clock_0 frame_01C291 = Some r1 /\
    parseDecibelData clock_1 frame_01C291 = Some r2 /\
    r1 <> r2.
Proof.
  do 2 eexists. split; [reflexivity|]. split; [reflexivity|].
  vm_compute. discriminate.
Qed.

(** C2 (amended): two decodes of the same 8-byte frame yield Readings with
    identical measured, mode, freqMode and range; each timestamp is the
    formatted clock reading of its own call, so the two Readings are
    identical whenever the two clock readings format alike. *)
Theorem decode_same_frame (now1 now2 : Time) (frame : list byte)
  (Hlen : length frame = 8%nat) :
  exists r1 r2,
    parseDecibelData now1 frame = Some r1 /\
    parseDecibelData now2 frame = Some r2 /\
    Measured r1 = Measured r2 /\ Mode r1 = Mode r2 /\
    FreqMode r1 = FreqMode r2 /\ Range r1 = Range r2 /\
    Timestamp r1 = format_timestamp now1 /\
    Timestamp r2 = format_timestamp now2 /\
    (format_timestamp now1 = format_timestamp now2 -> r1 = r2).
Proof.
  destruct (long_buffer frame) as (b0 & b1 & b2 & rest & ->); [lia|].
  rewrite !parseDecibelData_cons. do 2 eexists.
  repeat split; simpl. intros ->. reflexivity.
Qed.

Lemma decode_same_frame_witness :
  exists r1 r2,
    parseDecibelData clock_0 frame_01C291 = Some r1 /\
    parseDecibelData clock_1 frame_01C291 = Some r2 /\
    Measured r1 = Measured r2 /\ Mode r1 = Mode r2 /\
    FreqMode r1 = FreqMode r2 /\ Range r1 = Range r2 /\
    Timestamp r1 = format_timestamp clock_0 /\
    Timestamp r2 = format_timestamp clock_1 /\
    (format_timestamp clock_0 = format_timestamp clock_1 -> r1 = r2).
Proof. apply (decode_same_frame clock_0 clock_1 frame_01C291). reflexivity. Defined.

(** C4: the frequency-mode decoder returns dBC exactly when bit 0x10 (bit 4)
    or bit 0x80 (bit 7) of the byte is set, and dBA otherwise. *)
Theorem parseFreqMode_spec (b : byte) :
  (parseFreqMode b = "dBC" <->
     Z.testbit (byte_val b) 4 = true \/ Z.testbit (byte_val b) 7 = true) /\
  (parseFreqMode b = "dBA" <->
     ~ (Z.testbit (byte_val b) 4 = true \/ Z.testbit (byte_val b) 7 = true)).
Proof.
  rewrite parseFreqMode_eq.
  destruct (Z.testbit (byte_val b) 4), (Z.testbit (byte_val b) 7); simpl;
    intuition congruence.
Qed.

(** C5: the range decoder sends the low nibble of the byte through the table
    0 -> 30-130, 1 -> 30-80, 2 -> 50-100, 3 -> 60-110, 4 -> 80-130 and
    answers unknown for the nibbles 5 to 15. *)
Theorem parseRange_spec (b : byte) :
  let nibble := Z.land (byte_val b) 0x0F in
  0 <= nibble <= 15 /\
  parseRange b = range_label nibble /\
  (nibble <= 4 \/ parseRange b = "unknown") /\
  In (parseRange b) ["30-130"; "30-80"; "50-100"; "60-110"; "80-130"; "unknown"].
Proof.
  destruct b; vm_compute; (split; [split; discriminate|]);
    (split; [reflexivity|]); (split; [first [left; discriminate | right; reflexivity]|]);
    tauto.
Qed.

(** C6: bytes 0 and 1 of the frame are read as a big-endian 16-bit integer
    raw = 256 * hi + lo, and the measured value is the float64 quotient of raw
    by 10.0: the float64 nearest to raw / 10, which prints with one decimal as
    the digits of raw with the point before the last one. *)
Theorem measured_exact (now : Time) (hi lo b2 : byte) (rest : list byte) :
  exists r,
    parseDecibelData now (hi :: lo :: b2 :: rest) = Some r /\
    Measured r = f64_div (f64_of_Z (be16 hi lo)) f64_ten /\
    nearest_to_tenths (be16 hi lo) (Measured r) = true /\
    fmt_f1 (Measured r) = fmt_tenths (be16 hi lo).
Proof.
  rewrite parseDecibelData_cons. eexists. split; [reflexivity|]. simpl.
  destruct (measured_facts hi lo) as (Hraw & Hnear & Hfmt & _).
  split; [|split]; auto.
  unfold measured_of. rewrite Hraw. reflexivity.
Qed.

Example measured_01_3A :
  be16 x01 x3a = 314 /\ fmt_f1 (measured_of x01 x3a) = "31.4".
Proof. split; reflexivity. Qed.

(** ** Sending the command *)

Lemma write_ok_dec (ex : Exchange) : {write_ok ex} + {~ write_ok ex}.
Proof.
  unfold write_ok. destruct (ex_write_err ex) as [e|].
  - right. intros [H _]. discriminate.
  - destruct (Z.eq_dec (ex_write_n ex) 8); [left | right]; tauto.
Defined.

Lemma sendCommand_ok (ex : Exchange) (command : list byte) :
  write_ok ex ->
  sendCommand (ex_write_n ex) (ex_write_err ex) command =
  (None, [Sleep 500; Printed ("Command sent: " +:+ fmt_X command)]).
Proof.
  intros [He Hn]. unfold sendCommand. rewrite He, Hn. reflexivity.
Qed.

Lemma sendCommand_fail (ex : Exchange) (command : list byte) :
  ~ write_ok ex ->
  sendCommand (ex_write_n ex) (ex_write_err ex) command = (Some (send_error ex), []).
Proof.
  intros H. unfold sendCommand, send_error, write_ok in *.
  destruct (ex_write_err ex) as [e|]; [reflexivity|].
  simpl. destruct (Z.eqb_spec (ex_write_n ex) 8) as [Hn|Hn]; [tauto|reflexivity].
Qed.

(** ** The buffer *)

Lemma length_read_buf (p : list byte) (r : ReadResult) :
  length (read_buf p r) = length p.
Proof.
  destruct r as [data|n msg]; simpl; [|reflexivity].
  rewrite length_app, length_drop, length_take. lia.
Qed.

Lemma read_n_zero (p : list byte) (r : ReadResult) :
  read_err r = None -> read_n p r = 0 -> read_buf p r = p.
Proof.
  destruct r as [data|n msg]; simpl; [|discriminate].
  intros _ H. destruct (take (length p) data); simpl in *; [reflexivity|lia].
Qed.

Lemma read_full (p data : list byte) :
  (length p <= length data)%nat -> read_buf p (ReadOk data) = take (length p) data.
Proof.
  intros H. simpl. rewrite length_take, Nat.min_l by lia.
  rewrite drop_all. apply app_nil_r.
Qed.

(** ** One pass of the loop *)

Lemma iteration_send_fail (w : option string) (t : Tick) (buf : list byte) (fs : FileSys) :
  ~ write_ok (tick_io t) ->
  iteration w t buf fs =
  Some (buf, fs, [Sleep 500;
                  Logged ("Error sending capture command: " +:+ send_error (tick_io t))]).
Proof.
  intros H. unfold iteration. rewrite (sendCommand_fail _ _ H). reflexivity.
Qed.

Lemma iteration_read_err (w : option string) (t : Tick) (buf : list byte) (fs : FileSys)
  (n : Z) (msg : string) :
  write_ok (tick_io t) -> ex_read (tick_io t) = ReadErr n msg ->
  iteration w t buf fs =
  Some (buf, fs, Sleep 500 :: sent_events ++ [Logged ("Error reading data: " +:+ msg)]).
Proof.
  intros H Hr. unfold iteration. rewrite (sendCommand_ok _ _ H), Hr. reflexivity.
Qed.

Lemma iteration_no_data (w : option string) (t : Tick) (buf : list byte) (fs : FileSys) :
  write_ok (tick_io t) -> read_err (ex_read (tick_io t)) = None ->
  read_n buf (ex_read (tick_io t)) <= 0 ->
  iteration w t buf fs =
  Some (read_buf buf (ex_read (tick_io t)), fs, Sleep 500 :: sent_events).
Proof.
  intros H He Hn. unfold iteration. rewrite (sendCommand_ok _ _ H), He.
  destruct (Z.ltb_spec 0 (read_n buf (ex_read (tick_io t)))); [lia|reflexivity].
Qed.

Lemma iteration_publish (w : option string) (t : Tick) (buf : list byte) (fs : FileSys) :
  publishes t buf ->
  iteration w t buf fs =
  data ← parseDecibelData (tick_now t) (read_buf buf (ex_read (tick_io t)));
  Some (read_buf buf (ex_read (tick_io t)), log_row w data fs,
        Sleep 500 :: sent_events ++
        [Printed ("Raw Data Read (" +:+ fmt_d (read_n buf (ex_read (tick_io t)))
                  +:+ " bytes): " +:+ fmt_v_bytes (read_buf buf (ex_read (tick_io t))));
         PrintedJSON data]).
Proof.
  intros (H & He & Hn). unfold iteration. rewrite (sendCommand_ok _ _ H), He.
  destruct (Z.ltb_spec 0 (read_n buf (ex_read (tick_io t)))); [|lia].
  destruct w; reflexivity.
Qed.

Lemma publishes_dec (t : Tick) (buf : list byte) : {publishes t buf} + {~ publishes t buf}.
Proof.
  unfold publishes. destruct (write_ok_dec (tick_io t)); [|right; tauto].
  destruct (read_err (ex_read (tick_io t))); [right; intros (_ & ? & _); discriminate|].
  destruct (Z_lt_dec 0 (read_n buf (ex_read (tick_io t)))); [left|right]; tauto.
Defined.

Lemma parse_total (now : Time) (buf : list byte) :
  (3 <= length buf)%nat -> exists data, parseDecibelData now buf = Some data.
Proof.
  intros H. destruct (long_buffer buf H) as (b0 & b1 & b2 & rest & ->).
  rewrite parseDecibelData_cons. eauto.
Qed.

(** What one pass does, case by case. *)
Lemma iteration_cases (w : option string) (t : Tick) (buf : list byte) (fs : FileSys) :
  (3 <= length buf)%nat ->
  exists buf' fs' evs,
    iteration w t buf fs = Some (buf', fs', evs) /\
    length buf' = length buf /\
    ((publishes t buf /\
      exists data, parseDecibelData (tick_now t) buf' = Some data /\
                   buf' = read_buf buf (ex_read (tick_io t)) /\
                   published evs = [data] /\ diagnostics evs = [] /\
                   fs' = log_row w data fs)
     \/ (~ publishes t buf /\ published evs = [] /\ fs' = fs)).
Proof.
  intros Hlen. destruct (publishes_dec t buf) as [Hp|Hp].
  - rewrite (iteration_publish _ _ _ _ Hp).
    destruct (parse_total (tick_now t) (read_buf buf (ex_read (tick_io t))))
      as [data Hd]; [rewrite length_read_buf; lia|].
    rewrite Hd. simpl. do 3 eexists. split; [reflexivity|].
    split; [apply length_read_buf|]. left. split; [exact Hp|].
    exists data. repeat split; auto.
  - destruct (write_ok_dec (tick_io t)) as [Hw|Hw].
    + destruct (ex_read (tick_io t)) as [data|n msg] eqn:Hr.
      * rewrite iteration_no_data; [| exact Hw | rewrite Hr; reflexivity |].
        -- do 3 eexists. split; [reflexivity|]. rewrite Hr.
           split; [apply length_read_buf|]. right. repeat split; auto.
        -- unfold publishes in Hp. rewrite Hr in *. simpl in *.
           destruct (Z_lt_dec 0 (Z.of_nat (length (take (length buf) data)))); [|lia].
           exfalso. apply Hp. auto.
      * rewrite (iteration_read_err _ _ _ _ n msg Hw Hr).
        do 3 eexists. split; [reflexivity|]. split; [reflexivity|].
        right. repeat split; auto.
    + rewrite (iteration_send_fail _ _ _ _ Hw).
      do 3 eexists. split; [reflexivity|]. split; [reflexivity|].
      right. repeat split; auto.
Qed.

(** ** The loop *)

Lemma poll_cons (w : option string) (t : Tick) (rest : list Tick)
  (buf buf' : list byte) (fs fs' : FileSys) (evs : list Event) :
  tick_stop t = false ->
  iteration w t buf fs = Some (buf', fs', evs) ->
  poll w (t :: rest) buf fs = prepend_events evs <$> poll w rest buf' fs'.
Proof.
  intros Hgo Hit. simpl. rewrite Hgo, Hit. simpl.
  destruct (poll w rest buf' fs'); reflexivity.
Qed.

Lemma poll_total (w : option string) (ticks : list Tick) :
  forall (buf : list byte) (fs : FileSys),
    (3 <= length buf)%nat ->
    exists r, poll w ticks buf fs = Some r /\ length (run_buf r) = length buf.
Proof.
  induction ticks as [|t rest IH]; intros buf fs Hlen; simpl.
  - eexists. split; reflexivity.
  - destruct (tick_stop t) eqn:Hstop.
    + eexists. split; reflexivity.
    + destruct (iteration_cases w t buf fs Hlen) as (buf' & fs' & evs & Hit & Hl & _).
      rewrite Hit. simpl.
      destruct (IH buf' fs') as (r & Hr & Hlr); [lia|].
      rewrite Hr. simpl. eexists. split; [reflexivity|]. simpl. lia.
Qed.

Lemma published_app (a b : list Event) : published (a ++ b) = published a ++ published b.
Proof. apply omap_app. Qed.

Lemma logged_nil (w : option string) (evs : list Event) (fs : FileSys) :
  published evs = [] -> logged w evs fs = fs.
Proof.
  intros H. destruct w as [path|]; [|reflexivity]. simpl. rewrite H. simpl.
  unfold append_rows. apply alter_id. intros x _. apply app_nil_r.
Qed.

Lemma logged_app (w : option string) (a b : list Event) (fs : FileSys) :
  logged w (a ++ b) fs = logged w b (logged w a fs).
Proof.
  destruct w as [path|]; [|reflexivity]. simpl. unfold append_rows.
  rewrite alter_alter_eq, published_app, map_app.
  apply alter_ext. intros x _. simpl. apply app_assoc.
Qed.

Lemma iteration_logged (w : option string) (t : Tick) (buf buf' : list byte)
  (fs fs' : FileSys) (evs : list Event) :
  iteration w t buf fs = Some (buf', fs', evs) ->
  fs' = logged w evs fs /\ Forall decoded (published evs) /\
  (length (published evs) <= 1)%nat.
Proof.
  unfold iteration.
  destruct (sendCommand _ _ _) as [[e|] sev] eqn:Hs.
  - intros [= <- <- <-]. unfold sendCommand in Hs.
    destruct (_ || _) in Hs; inversion Hs; subst. simpl.
    split; [symmetry; apply logged_nil; reflexivity|]. split; [constructor|lia].
  - unfold sendCommand in Hs. destruct (_ || _) in Hs; inversion Hs; subst.
    destruct (read_err (ex_read (tick_io t))) as [e|].
    + intros [= <- <- <-]. simpl.
      split; [symmetry; apply logged_nil; reflexivity|]. split; [constructor|lia].
    + destruct (0 <? _).
      * destruct (read_buf buf (ex_read (tick_io t))) as [|b0 [|b1 [|b2 l]]] eqn:Hb;
          try discriminate.
        rewrite parseDecibelData_cons. simpl. intros [= <- <- <-]. simpl.
        split; [|split; [|lia]].
        -- destruct w as [path|]; [|reflexivity]. reflexivity.
        -- repeat constructor. exists (tick_now t), b0, b1, b2. reflexivity.
      * intros [= <- <- <-]. simpl.
        split; [symmetry; apply logged_nil; reflexivity|]. split; [constructor|lia].
Qed.

(** What a run of the loop leaves behind: the readings it published went,
    in order, to the end of the log file, and only there. *)
Lemma poll_logged (w : option string) (ticks : list Tick) :
  forall (buf : list byte) (fs : FileSys) (r : Run),
    poll w ticks buf fs = Some r ->
    run_fs r = logged w (run_events r) fs /\
    Forall decoded (published (run_events r)) /\
    (length (published (run_events r)) <= length ticks)%nat.
Proof.
  induction ticks as [|t rest IH]; intros buf fs r; simpl.
  - intros [= <-]. simpl. split; [symmetry; apply logged_nil; reflexivity|].
    split; [constructor|lia].
  - destruct (tick_stop t).
    + intros [= <-]. simpl. split; [symmetry; apply logged_nil; reflexivity|].
      split; [constructor|lia].
    + destruct (iteration w t buf fs) as [[[buf' fs'] evs]|] eqn:Hit; [|discriminate].
      simpl. destruct (poll w rest buf' fs') as [r'|] eqn:Hr; [|discriminate].
      simpl. intros [= <-]. simpl.
      destruct (iteration_logged _ _ _ _ _ _ _ Hit) as (Hfs & Hdec & Hone).
      destruct (IH _ _ _ Hr) as (Hfs' & Hdec' & Hlen').
      rewrite published_app, logged_app, length_app, <- Hfs.
      split; [exact Hfs'|]. split; [apply Forall_app; auto|lia].
Qed.

Lemma decoded_one_fraction_digit (d : DecibelReading) :
  decoded d -> one_fraction_digit (fmt_f1 (Measured d)) = true.
Proof.
  intros (now & b0 & b1 & b2 & ->). simpl. apply measured_facts.
Qed.

(** ** The claims on the loop *)

(** C3, as the claim states it, fails: a read that returns three bytes, fewer
    than a full frame, still publishes a Reading, decoded from the buffer
    whose other five bytes are left from before. *)
Lemma short_read_publishes :
  exists buf' fs' evs d,
    iteration None tick_3_bytes make_buf ∅ = Some (buf', fs', evs) /\
    read_n make_buf (ex_read (tick_io tick_3_bytes)) = 3 /\
    published evs = [d].
Proof. do 4 eexists. split; [reflexivity|]. split; reflexivity. Qed.

(** C3 (amended): in every pass of the loop a Reading is produced and handed
    to both sinks exactly when the command was sent and the device read
    returned without error and with at least one byte; then exactly one
    Reading, decoded from the 8-byte buffer after the read, is printed and
    logged. In every other pass no Reading is published and the log is left
    as it was. *)
Theorem publish_iff_bytes_read (csvWriter : option string) (t : Tick)
  (buf : list byte) (fs : FileSys) (Hlen : length buf = 8%nat) :
  exists buf' fs' evs,
    iteration csvWriter t buf fs = Some (buf', fs', evs) /\
    length buf' = 8%nat /\
    ((publishes t buf /\
      exists data, parseDecibelData (tick_now t) buf' = Some data /\
                   published evs = [data] /\
                   fs' = log_row csvWriter data fs)
     \/ (~ publishes t buf /\ published evs = [] /\ fs' = fs)).
Proof.
  destruct (iteration_cases csvWriter t buf fs) as (buf' & fs' & evs & Hit & Hl & Hc);
    [lia|].
  exists buf', fs', evs. split; [exact Hit|]. split; [lia|].
  destruct Hc as [(Hp & data & Hd & _ & Hpub & _ & Hfs)|Hn]; [left|right; exact Hn].
  split; [exact Hp|]. exists data. auto.
Qed.

Lemma publish_iff_bytes_read_witness :
  exists buf' fs' evs,
    iteration None tick_3_bytes make_buf ∅ = Some (buf', fs', evs) /\
    length buf' = 8%nat /\
    ((publishes tick_3_bytes make_buf /\
      exists data, parseDecibelData (tick_now tick_3_bytes) buf' = Some data /\
                   published evs = [data] /\
                   fs' = log_row None data ∅)
     \/ (~ publishes tick_3_bytes make_buf /\ published evs = [] /\ fs' = ∅)).
Proof. apply (publish_iff_bytes_read None tick_3_bytes make_buf ∅). reflexivity. Defined.

(** C8: sending the capture command fails exactly when the device write
    returns an error or a count other than 8; in the loop such a failure
    costs the pass only: one diagnostic is logged, buffer and log file stay
    as they are, and the loop goes on with the next pass. *)
Theorem send_failure_is_recoverable (csvWriter : option string) (t : Tick)
  (rest : list Tick) (buf : list byte) (fs : FileSys)
  (Hgo : tick_stop t = false) :
  let ex := tick_io t in
  let err := fst (sendCommand (ex_write_n ex) (ex_write_err ex) commandCapture) in
  (err <> None <-> ex_write_err ex <> None \/ ex_write_n ex <> 8) /\
  (err = None \/
   poll csvWriter (t :: rest) buf fs =
   prepend_events
     [Sleep 500; Logged ("Error sending capture command: " +:+ send_error ex)]
   <$> poll csvWriter rest buf fs).
Proof.
  intros ex err. subst err.
  destruct (write_ok_dec ex) as [Hw|Hw].
  - rewrite (sendCommand_ok _ _ Hw). simpl. split; [|left; reflexivity].
    destruct Hw as [He Hn]. split; [congruence|]. intros [H|H]; congruence.
  - rewrite (sendCommand_fail _ _ Hw). simpl. split.
    + split; [|discriminate]. intros _. unfold write_ok in Hw.
      destruct (ex_write_err ex); [left; discriminate|].
      right. intros Hn. apply Hw. auto.
    + right. apply poll_cons; [exact Hgo|]. apply iteration_send_fail, Hw.
Qed.

Lemma send_failure_is_recoverable_witness :
  let ex := tick_io tick_short_write in
  let err := fst (sendCommand (ex_write_n ex) (ex_write_err ex) commandCapture) in
  (err <> None <-> ex_write_err ex <> None \/ ex_write_n ex <> 8) /\
  (err = None \/
   poll None (tick_short_write :: [tick_full]) make_buf ∅ =
   prepend_events
     [Sleep 500; Logged ("Error sending capture command: " +:+ send_error ex)]
   <$> poll None [tick_full] make_buf ∅).
Proof.
  apply (send_failure_is_recoverable None tick_short_write [tick_full] make_buf ∅).
  reflexivity.
Defined.

(** C9: a pass whose read returns zero bytes without error produces no
    Reading, prints no JSON record, writes no CSV row and logs no
    diagnostic; buffer and file stay as they are and the loop goes on with
    the next pass. *)
Theorem zero_length_read_is_skipped (csvWriter : option string) (t : Tick)
  (rest : list Tick) (buf : list byte) (fs : FileSys)
  (Hgo : tick_stop t = false)
  (Hw : write_ok (tick_io t))
  (Herr : read_err (ex_read (tick_io t)) = None)
  (Hn : read_n buf (ex_read (tick_io t)) = 0) :
  exists evs,
    iteration csvWriter t buf fs = Some (buf, fs, evs) /\
    published evs = [] /\ diagnostics evs = [] /\
    poll csvWriter (t :: rest) buf fs = prepend_events evs <$> poll csvWriter rest buf fs.
Proof.
  assert (Hit : iteration csvWriter t buf fs = Some (buf, fs, Sleep 500 :: sent_events)).
  { rewrite iteration_no_data by (auto; lia). rewrite read_n_zero by auto. reflexivity. }
  eexists. split; [exact Hit|]. split; [reflexivity|]. split; [reflexivity|].
  apply poll_cons; assumption.
Qed.

Lemma zero_length_read_is_skipped_witness :
  exists evs,
    iteration None tick_empty_read make_buf ∅ = Some (make_buf, ∅, evs) /\
    published evs = [] /\ diagnostics evs = [] /\
    poll None (tick_empty_read :: [tick_full]) make_buf ∅ =
    prepend_events evs <$> poll None [tick_full] make_buf ∅.
Proof.
  apply (zero_length_read_is_skipped None tick_empty_read [tick_full] make_buf ∅);
    [reflexivity | split; reflexivity | reflexivity | reflexivity].
Defined.

(** C10: the one-shot probe answers without error exactly when the command
    was sent and the read returned, without error, at least 6 bytes; then the
    three fields are decoded from byte 2 of the buffer. A read of fewer than
    6 bytes is answered like a read error: three times unknown, with the
    error "failed to read initial data". *)
Theorem readCurrentMode_spec (ex : Exchange) :
  let n := read_n make_buf (ex_read ex) in
  let err := read_err (ex_read ex) in
  exists p evs,
    readCurrentMode ex = Some (p, evs) /\
    (pr_err p = None <-> write_ok ex /\ err = None /\ 6 <= n) /\
    (pr_err p = None \/
     (pr_mode p, pr_freqMode p, pr_range p) = ("unknown", "unknown", "unknown")) /\
    (pr_err p <> None \/
     exists b2, read_buf make_buf (ex_read ex) !! 2%nat = Some b2 /\
                p = mkProbe (parseMode b2) (parseFreqMode b2) (parseRange b2) None) /\
    (~ write_ok ex \/ (err = None /\ 6 <= n) \/
     pr_err p = Some ("failed to read initial data: " +:+ fmt_v_err err)).
Proof.
  intros n err. subst n err. unfold readCurrentMode.
  destruct (write_ok_dec ex) as [Hw|Hw].
  - rewrite (sendCommand_ok _ _ Hw).
    destruct (read_err (ex_read ex)) as [e|] eqn:He; simpl.
    + do 2 eexists. split; [reflexivity|]. simpl.
      split; [split; [discriminate|intros (_ & ? & _); discriminate]|].
      split; [right; reflexivity|]. split; [left; discriminate|].
      right. right. reflexivity.
    + destruct (Z.ltb_spec (read_n make_buf (ex_read ex)) 6) as [Hn|Hn].
      * do 2 eexists. split; [reflexivity|]. simpl.
        split; [split; [discriminate|intros (_ & _ & ?); lia]|].
        split; [right; reflexivity|]. split; [left; discriminate|].
        right. right. reflexivity.
      * destruct (long_buffer (read_buf make_buf (ex_read ex)))
          as (b0 & b1 & b2 & rest & Hb); [rewrite length_read_buf; simpl; lia|].
        rewrite Hb. simpl. do 2 eexists. split; [reflexivity|]. simpl.
        split; [split; auto|]. split; [left; reflexivity|].
        split; [right; eauto|]. right. left. auto.
  - rewrite (sendCommand_fail _ _ Hw). do 2 eexists. split; [reflexivity|]. simpl.
    split; [split; [discriminate|tauto]|].
    split; [right; reflexivity|]. split; [left; discriminate|]. left. exact Hw.
Qed.

(** ** The log file and the whole program *)

Lemma setupCSVLog_fresh (path : string) (fs : FileSys) :
  fs !! path = None ->
  setupCSVLog None path fs = (<[path := [csvHeader]]> fs, inr path).
Proof.
  intros H. unfold setupCSVLog, fileExists, os_Stat, os_OpenFile. rewrite H. simpl.
  unfold csv_write_flush. rewrite alter_insert_eq. reflexivity.
Qed.

Lemma setupCSVLog_existing (path : string) (fs : FileSys) (rows : list (list string)) :
  fs !! path = Some rows -> setupCSVLog None path fs = (fs, inr path).
Proof.
  intros H. unfold setupCSVLog, fileExists, os_Stat, os_OpenFile. rewrite H. reflexivity.
Qed.

Lemma setupCSVLog_error (e path : string) (fs : FileSys) :
  setupCSVLog (Some e) path fs = (fs, inl e).
Proof. reflexivity. Qed.

Lemma readCurrentMode_total (ex : Exchange) :
  exists p evs, readCurrentMode ex = Some (p, evs) /\ published evs = [] /\
                (evs = [] \/ evs = sent_events).
Proof.
  unfold readCurrentMode. destruct (write_ok_dec ex) as [Hw|Hw].
  - rewrite (sendCommand_ok _ _ Hw).
    destruct (not_nil _ || _).
    + do 2 eexists. split; [reflexivity|]. split; [reflexivity|right; reflexivity].
    + destruct (long_buffer (read_buf make_buf (ex_read ex)))
        as (b0 & b1 & b2 & rest & Hb); [rewrite length_read_buf; simpl; lia|].
      rewrite Hb. simpl. do 2 eexists. split; [reflexivity|].
      split; [reflexivity|right; reflexivity].
  - rewrite (sendCommand_fail _ _ Hw). do 2 eexists. split; [reflexivity|].
    split; [reflexivity|left; reflexivity].
Qed.

Lemma readDecibelData_total (w : option string) (ticks : list Tick) (fs : FileSys) :
  exists r, readDecibelData w ticks fs = Some r /\ length (run_buf r) = 8%nat.
Proof.
  destruct (poll_total w ticks make_buf fs) as (r & Hr & Hl); [simpl; lia|].
  exists r. split; [exact Hr|exact Hl].
Qed.

(** A run of the program that gets past its start-up with logging to
    [path]: the file is set up, and the readings printed are the rows
    appended. *)
Lemma main_logging (path : string) (env : Env) (fs : FileSys) :
  path <> "" -> starts env ->
  exists evs,
    main path env fs =
    Some (logged (Some path) evs (fst (setupCSVLog None path fs)), evs) /\
    Forall decoded (published evs) /\
    (length (published evs) <= length (env_ticks env))%nat.
Proof.
  intros Hpath (Hi & Ho & Hf). unfold main. rewrite Hi, Ho, Hf.
  rewrite bool_decide_eq_false_2 by exact Hpath.
  assert (Hsetup : exists fs1, setupCSVLog None path fs = (fs1, inr path)).
  { destruct (fs !! path) as [rows|] eqn:Hl.
    - rewrite (setupCSVLog_existing _ _ _ Hl). eauto.
    - rewrite (setupCSVLog_fresh _ _ Hl). eauto. }
  destruct Hsetup as [fs1 Hsetup]. rewrite Hsetup. simpl.
  destruct (readCurrentMode_total (env_probe env)) as (p & ev1 & Hp & Hpub1 & _).
  rewrite Hp. simpl.
  destruct (readDecibelData_total (Some path) (env_ticks env) fs1) as (r & Hr & _).
  rewrite Hr. simpl.
  destruct (poll_logged _ _ _ _ _ Hr) as (Hfs & Hdec & Hlen).
  match goal with
  | |- context [Some (run_fs r, ?e)] =>
      exists e; assert (Hpub : published e = published (run_events r))
  end.
  { match goal with
    | |- published (?x :: ?l) = ?rhs => change (published ([x] ++ l) = rhs)
    end.
    rewrite !published_app, Hpub1. simpl. destruct (pr_err p); reflexivity. }
  split; [|split].
  - rewrite Hfs. unfold logged. simpl fst. rewrite Hpub. reflexivity.
  - rewrite Hpub. assumption.
  - rewrite Hpub. assumption.
Qed.

(** C7: logging to a path that does not exist yet leaves exactly the header
    row timestamp,measured,mode,freqMode,range followed by one row per
    Reading published, in the order of publication, the measured field
    printed with exactly one fractional digit; a second run on the file now
    there appends its rows and writes no second header. *)
Theorem csv_log_fresh_then_again (path : string) (env1 env2 : Env) (fs : FileSys)
  (Hpath : path <> "") (Hnew : fs !! path = None)
  (Hrun1 : starts env1) (Hrun2 : starts env2) :
  exists fs1 evs1 fs2 evs2,
    main path env1 fs = Some (fs1, evs1) /\
    fs1 !! path = Some (csvHeader :: map csv_row (published evs1)) /\
    main path env2 fs1 = Some (fs2, evs2) /\
    fs2 !! path =
      Some (csvHeader :: map csv_row (published evs1) ++ map csv_row (published evs2)) /\
    Forall (fun d => nth_error (csv_row d) 1 = Some (fmt_f1 (Measured d)) /\
                     one_fraction_digit (fmt_f1 (Measured d)) = true)
      (published evs1 ++ published evs2).
Proof.
  destruct (main_logging path env1 fs Hpath Hrun1) as (evs1 & Hm1 & Hd1 & _).
  rewrite (setupCSVLog_fresh _ _ Hnew) in Hm1. simpl in Hm1.
  assert (Hl1 : append_rows path (map csv_row (published evs1))
                  (<[path := [csvHeader]]> fs) !! path
                = Some (csvHeader :: map csv_row (published evs1))).
  { unfold append_rows. rewrite lookup_alter_eq, lookup_insert_eq. reflexivity. }
  destruct (main_logging path env2
              (append_rows path (map csv_row (published evs1))
                 (<[path := [csvHeader]]> fs)) Hpath Hrun2)
    as (evs2 & Hm2 & Hd2 & _).
  rewrite (setupCSVLog_existing _ _ _ Hl1) in Hm2. simpl in Hm2.
  do 4 eexists. split; [exact Hm1|]. split; [exact Hl1|]. split; [exact Hm2|].
  split.
  - unfold append_rows at 1. rewrite lookup_alter_eq, Hl1. reflexivity.
  - apply Forall_app. split; eapply Forall_impl; eauto;
      intros d Hd; (split; [reflexivity|apply decoded_one_fraction_digit, Hd]).
Qed.

Lemma csv_log_fresh_then_again_witness :
  exists fs1 evs1 fs2 evs2,
    main "a.csv" env_a ∅ = Some (fs1, evs1) /\
    fs1 !! "a.csv" = Some (csvHeader :: map csv_row (published evs1)) /\
    main "a.csv" env_b fs1 = Some (fs2, evs2) /\
    fs2 !! "a.csv" =
      Some (csvHeader :: map csv_row (published evs1) ++ map csv_row (published evs2)) /\
    Forall (fun d => nth_error (csv_row d) 1 = Some (fmt_f1 (Measured d)) /\
                     one_fraction_digit (fmt_f1 (Measured d)) = true)
      (published evs1 ++ published evs2).
Proof.
  apply (csv_log_fresh_then_again "a.csv" env_a env_b ∅);
    [discriminate | reflexivity | repeat split | repeat split].
Defined.

(** * Further properties of the code *)

(** ** The codec *)

(** X1: the mode decoder answers fast exactly when bit 0x40 (bit 6) of the
    byte is set, and slow otherwise. *)
Theorem parseMode_spec (b : byte) :
  (parseMode b = "fast" <-> Z.testbit (byte_val b) 6 = true) /\
  (parseMode b = "slow" <-> Z.testbit (byte_val b) 6 = false).
Proof.
  rewrite parseMode_eq. destruct (Z.testbit (byte_val b) 6); intuition congruence.
Qed.

(** X2: decoding panics on a slice index exactly for buffers shorter than
    three bytes; any longer buffer decodes. *)
Theorem parseDecibelData_panics_iff_short (now : Time) (buf : list byte) :
  parseDecibelData now buf = None <-> (length buf < 3)%nat.
Proof.
  destruct buf as [|b0 [|b1 [|b2 rest]]]; simpl; split; intros H;
    try reflexivity; try lia; try discriminate.
Qed.

(** X3: the decoded Reading depends on the first three bytes of the buffer
    only (and on the clock): bytes 3 to 7 of a frame are never looked at. *)
Theorem parseDecibelData_first_three (now : Time) (buf1 buf2 : list byte)
  (Hsame : take 3 buf1 = take 3 buf2) :
  parseDecibelData now buf1 = parseDecibelData now buf2.
Proof.
  destruct buf1 as [|a0 [|a1 [|a2 r1]]], buf2 as [|c0 [|c1 [|c2 r2]]];
    simpl in Hsame; try discriminate; try reflexivity.
  inversion Hsame; subst. reflexivity.
Qed.

Lemma parseDecibelData_first_three_witness :
  parseDecibelData clock_0 frame_01C291 =
  parseDecibelData clock_0 [x01; xc2; x91; xff; xff]%byte.
Proof.
  apply (parseDecibelData_first_three clock_0 frame_01C291 [x01; xc2; x91; xff; xff]%byte).
  reflexivity.
Defined.

Lemma land_mask (x m k : Z) : Z.land k m = k -> Z.land x k = Z.land (Z.land x m) k.
Proof. intros H. rewrite <- Z.land_assoc, (Z.land_comm m k), H. reflexivity. Qed.

(** X4: bit 0x20 of the status byte carries nothing: two status bytes that
    agree on the other seven bits (mask 0xDF) decode to the same mode,
    frequency mode and range. *)
Theorem status_bit_0x20_ignored (b b' : byte)
  (Hsame : Z.land (byte_val b) 0xDF = Z.land (byte_val b') 0xDF) :
  parseMode b = parseMode b' /\ parseFreqMode b = parseFreqMode b' /\
  parseRange b = parseRange b'.
Proof.
  unfold parseMode, parseFreqMode, parseRange.
  rewrite (land_mask (byte_val b) 0xDF 0x40), (land_mask (byte_val b') 0xDF 0x40),
    (land_mask (byte_val b) 0xDF 0x10), (land_mask (byte_val b') 0xDF 0x10),
    (land_mask (byte_val b) 0xDF 0x80), (land_mask (byte_val b') 0xDF 0x80),
    (land_mask (byte_val b) 0xDF 0x0F), (land_mask (byte_val b') 0xDF 0x0F)
    by reflexivity.
  rewrite Hsame. auto.
Qed.

Lemma status_bit_0x20_ignored_witness :
  parseMode x51 = parseMode x71 /\ parseFreqMode x51 = parseFreqMode x71 /\
  parseRange x51 = parseRange x71.
Proof. apply (status_bit_0x20_ignored x51 x71). reflexivity. Defined.

(** X5: the raw 16-bit value can be read back from the measured float64:
    ten times the measurement, rounded, is 256 * hi + lo. So two byte pairs
    give the same measurement only if they are the same pair. *)
Theorem measured_round_trip (hi lo hi' lo' : byte) :
  f64_tenths (measured_of hi lo) = Some (be16 hi lo) /\
  (measured_of hi lo = measured_of hi' lo' <-> hi = hi' /\ lo = lo').
Proof.
  destruct (measured_facts hi lo) as (_ & _ & _ & _ & Ht).
  destruct (measured_facts hi' lo') as (_ & _ & _ & _ & Ht').
  split; [exact Ht|]. split.
  - intros H. rewrite H in Ht. apply be16_inj. congruence.
  - intros [-> ->]. reflexivity.
Qed.

Lemma decoded_in_domain (d : DecibelReading) : decoded d -> in_domain d.
Proof.
  intros (now & b0 & b1 & b2 & ->). unfold in_domain. simpl.
  destruct (measured_facts b0 b1) as (_ & _ & _ & Hone & Ht).
  split; [rewrite parseMode_eq; destruct (Z.testbit _ _); simpl; auto|].
  split; [rewrite parseFreqMode_eq; destruct (_ || _); simpl; auto|].
  split.
  { rewrite parseRange_eq. unfold range_label.
    repeat match goal with
           | |- context [match ?x with _ => _ end] => destruct x
           end; simpl; tauto. }
  split; [exact Hone|]. exists (be16 b0 b1). split; [|exact Ht].
  pose proof (be16_range b0 b1). lia.
Qed.

(** ** The loop *)

(** X6: the polling loop never panics on a slice index, whatever the device
    answers: its buffer stays 8 bytes long, and it publishes at most one
    Reading per pass. *)
Theorem readDecibelData_never_panics (csvWriter : option string) (ticks : list Tick)
  (fs : FileSys) :
  exists r,
    readDecibelData csvWriter ticks fs = Some r /\
    length (run_buf r) = 8%nat /\
    (length (published (run_events r)) <= length ticks)%nat.
Proof.
  destruct (readDecibelData_total csvWriter ticks fs) as (r & Hr & Hl).
  exists r. split; [exact Hr|]. split; [exact Hl|].
  apply (poll_logged _ _ _ _ _ Hr).
Qed.

(** X7: every Reading the loop publishes has mode fast or slow, frequency
    mode dBA or dBC, one of the five range labels or unknown, and a
    measurement between 0.0 and 6553.5 that prints with one fractional
    digit. *)
Theorem published_readings_in_domain (csvWriter : option string) (ticks : list Tick)
  (fs : FileSys) :
  exists r,
    readDecibelData csvWriter ticks fs = Some r /\
    Forall in_domain (published (run_events r)).
Proof.
  destruct (readDecibelData_total csvWriter ticks fs) as (r & Hr & _).
  exists r. split; [exact Hr|].
  destruct (poll_logged _ _ _ _ _ Hr) as (_ & Hdec & _).
  eapply Forall_impl; [exact Hdec|]. apply decoded_in_domain.
Qed.

Lemma eight_bytes (buf : list byte) :
  length buf = 8%nat ->
  exists b0 b1 b2 b3 b4 b5 b6 b7, buf = [b0; b1; b2; b3; b4; b5; b6; b7].
Proof.
  destruct buf as [|b0 [|b1 [|b2 [|b3 [|b4 [|b5 [|b6 [|b7 [|b8 rest]]]]]]]]];
    simpl; intros H; try lia. do 8 eexists. reflexivity.
Qed.

(** X8: a read of one or two bytes does not reach the status byte: the
    Reading published in that pass takes mode, frequency mode and range from
    byte 2 of the buffer as the earlier passes left it. *)
Theorem short_read_keeps_old_status (csvWriter : option string) (t : Tick)
  (buf data : list byte) (fs : FileSys) (st : byte)
  (Hlen : length buf = 8%nat)
  (Hw : write_ok (tick_io t))
  (Hr : ex_read (tick_io t) = ReadOk data)
  (Hshort : (0 < length data <= 2)%nat)
  (Hst : buf !! 2%nat = Some st) :
  exists buf' fs' evs d,
    iteration csvWriter t buf fs = Some (buf', fs', evs) /\
    published evs = [d] /\
    Mode d = parseMode st /\ FreqMode d = parseFreqMode st /\ Range d = parseRange st.
Proof.
  destruct (eight_bytes buf Hlen) as (b0 & b1 & b2 & b3 & b4 & b5 & b6 & b7 & ->).
  simpl in Hst. injection Hst as ->.
  assert (Hp : publishes t [b0; b1; st; b3; b4; b5; b6; b7]).
  { unfold publishes. rewrite Hr. simpl. split; [exact Hw|]. split; [reflexivity|].
    destruct data as [|x [|y [|z l]]]; simpl in *; lia. }
  rewrite (iteration_publish _ _ _ _ Hp), Hr.
  destruct data as [|x [|y [|z l]]]; simpl in Hshort; try lia;
    simpl; do 4 eexists; (split; [reflexivity|]); simpl; auto.
Qed.

Lemma short_read_keeps_old_status_witness :
  exists buf' fs' evs d,
    iteration None tick_1_byte frame_01C291 ∅ = Some (buf', fs', evs) /\
    published evs = [d] /\
    Mode d = parseMode x91 /\ FreqMode d = parseFreqMode x91 /\
    Range d = parseRange x91.
Proof.
  apply (short_read_keeps_old_status None tick_1_byte frame_01C291 [x02]%byte ∅ x91);
    [reflexivity | split; reflexivity | reflexivity | simpl; lia | reflexivity].
Defined.

(** X9: a read of a full report of 8 bytes or more replaces the whole
    buffer, so the Reading published is decoded from the first 8 bytes of
    that report alone. *)
Theorem full_read_replaces_buffer (csvWriter : option string) (t : Tick)
  (buf data : list byte) (fs : FileSys)
  (Hlen : length buf = 8%nat)
  (Hw : write_ok (tick_io t))
  (Hr : ex_read (tick_io t) = ReadOk data)
  (Hfull : (8 <= length data)%nat) :
  exists d evs,
    parseDecibelData (tick_now t) (take 8 data) = Some d /\
    iteration csvWriter t buf fs = Some (take 8 data, log_row csvWriter d fs, evs) /\
    published evs = [d].
Proof.
  assert (Hb : read_buf buf (ex_read (tick_io t)) = take 8 data).
  { rewrite Hr, read_full by lia. rewrite Hlen. reflexivity. }
  assert (Hp : publishes t buf).
  { unfold publishes. rewrite Hr. simpl. split; [exact Hw|]. split; [reflexivity|].
    rewrite length_take. lia. }
  rewrite (iteration_publish _ _ _ _ Hp), Hb.
  destruct (parse_total (tick_now t) (take 8 data)) as [d Hd];
    [rewrite length_take; lia|].
  rewrite Hd. simpl. do 2 eexists. split; [reflexivity|]. split; reflexivity.
Qed.

Lemma full_read_replaces_buffer_witness :
  exists d evs,
    parseDecibelData (tick_now tick_full)
      (take 8 [x01; x3a; x40; x00; x00; x00; x00; x00]%byte) = Some d /\
    iteration None tick_full frame_01C291 ∅ =
      Some (take 8 [x01; x3a; x40; x00; x00; x00; x00; x00]%byte, log_row None d ∅, evs) /\
    published evs = [d].
Proof.
  apply (full_read_replaces_buffer None tick_full frame_01C291
           [x01; x3a; x40; x00; x00; x00; x00; x00]%byte ∅);
    [reflexivity | split; reflexivity | reflexivity | simpl; lia].
Defined.

(** X10: a pass sleeps 500 ms before the command and, once the command is
    sent, 500 ms more: 1000 ms in all when the write succeeds, 500 ms when it
    fails. *)
Theorem pass_sleeps (csvWriter : option string) (t : Tick) (buf : list byte)
  (fs : FileSys) (Hlen : length buf = 8%nat) :
  exists buf' fs' evs,
    iteration csvWriter t buf fs = Some (buf', fs', evs) /\
    ((write_ok (tick_io t) /\ slept evs = 1000) \/
     (~ write_ok (tick_io t) /\ slept evs = 500)).
Proof.
  destruct (write_ok_dec (tick_io t)) as [Hw|Hw].
  - destruct (iteration_cases csvWriter t buf fs) as (buf' & fs' & evs & Hit & _);
      [lia|].
    exists buf', fs', evs. split; [exact Hit|]. left. split; [exact Hw|].
    revert Hit. unfold iteration. rewrite (sendCommand_ok _ _ Hw).
    destruct (read_err _); [intros [= <- <- <-]; reflexivity|].
    destruct (0 <? _); [|intros [= <- <- <-]; reflexivity].
    destruct (parseDecibelData _ _); simpl; [|discriminate].
    intros [= <- <- <-]. reflexivity.
  - rewrite (iteration_send_fail _ _ _ _ Hw). do 3 eexists.
    split; [reflexivity|]. right. split; [exact Hw|reflexivity].
Qed.

Lemma pass_sleeps_witness :
  exists buf' fs' evs,
    iteration None tick_full make_buf ∅ = Some (buf', fs', evs) /\
    ((write_ok (tick_io tick_full) /\ slept evs = 1000) \/
     (~ write_ok (tick_io tick_full) /\ slept evs = 500)).
Proof. apply (pass_sleeps None tick_full make_buf ∅). reflexivity. Defined.

(** X11: once a pass finds the stop channel ready the loop returns: the
    passes after it are never made, and the run ends as stopped. *)
Theorem stop_ends_the_loop (csvWriter : option string) (pre rest : list Tick)
  (t : Tick) (buf : list byte) (fs : FileSys)
  (Hlen : length buf = 8%nat) (Hstop : tick_stop t = true) :
  exists r,
    poll csvWriter (pre ++ t :: rest) buf fs = Some r /\
    poll csvWriter (pre ++ [t]) buf fs = Some r /\
    run_stopped r = true.
Proof.
  revert buf fs Hlen. induction pre as [|p pre IH]; intros buf fs Hlen; simpl.
  - rewrite Hstop. eexists. split; [reflexivity|]. split; reflexivity.
  - destruct (tick_stop p); [eexists; split; [reflexivity|]; split; reflexivity|].
    destruct (iteration_cases csvWriter p buf fs) as (buf' & fs' & evs & Hit & Hl & _);
      [lia|].
    rewrite Hit. simpl. destruct (IH buf' fs') as (r & H1 & H2 & H3); [lia|].
    rewrite H1, H2. simpl. eexists. split; [reflexivity|]. split; [reflexivity|].
    exact H3.
Qed.

Lemma stop_ends_the_loop_witness :
  exists r,
    poll None ([tick_full] ++ tick_stop_now :: [tick_full; tick_full]) make_buf ∅ = Some r /\
    poll None ([tick_full] ++ [tick_stop_now]) make_buf ∅ = Some r /\
    run_stopped r = true.
Proof.
  apply (stop_ends_the_loop None [tick_full] [tick_full; tick_full] tick_stop_now
           make_buf ∅); reflexivity.
Defined.

(** ** The program and its files *)

Lemma poll_without_log (ticks : list Tick) (buf : list byte) (fs : FileSys) (r : Run) :
  poll None ticks buf fs = Some r -> run_fs r = fs.
Proof. intros H. apply (poll_logged _ _ _ _ _ H). Qed.

(** X12: without the log flag the program writes no file: the file system
    after the run is the one before it. *)
Theorem no_log_flag_no_file_written (env : Env) (fs : FileSys) :
  exists evs, main "" env fs = Some (fs, evs).
Proof.
  unfold main. destruct (env_init_err env); [eauto|].
  destruct (env_open_err env); [eauto|]. simpl.
  destruct (readCurrentMode_total (env_probe env)) as (p & ev1 & Hp & _).
  rewrite Hp. simpl.
  destruct (readDecibelData_total None (env_ticks env) fs) as (r & Hr & _).
  rewrite Hr. simpl. rewrite (poll_without_log _ _ _ _ Hr). eauto.
Qed.

Lemma setupCSVLog_other (open_err : option string) (path other : string) (fs : FileSys) :
  other <> path -> fst (setupCSVLog open_err path fs) !! other = fs !! other.
Proof.
  intros Hne. unfold setupCSVLog, os_OpenFile, fileExists, os_Stat, csv_write_flush.
  destruct open_err; [reflexivity|].
  destruct (fs !! path); simpl; [reflexivity|].
  rewrite lookup_alter_ne, lookup_insert_ne by congruence. reflexivity.
Qed.

(** The ways the program can go: it leaves the files alone, or it runs the
    loop on the file system [setupCSVLog] left and appends its readings. *)
Lemma main_cases (path : string) (env : Env) (fs : FileSys) :
  exists fs' evs,
    main path env fs = Some (fs', evs) /\
    (fs' = fs \/
     (path <> "" /\ starts env /\
      fs' = logged (Some path) evs (fst (setupCSVLog None path fs)))).
Proof.
  destruct (decide (path = "")) as [->|Hpath].
  { destruct (no_log_flag_no_file_written env fs) as [evs Hm].
    exists fs, evs. split; [exact Hm|]. left. reflexivity. }
  destruct (env_init_err env) as [e|] eqn:Hi.
  { unfold main. rewrite Hi. do 2 eexists. split; [reflexivity|]. left. reflexivity. }
  destruct (env_open_err env) as [e|] eqn:Ho.
  { unfold main. rewrite Hi, Ho. do 2 eexists. split; [reflexivity|]. left. reflexivity. }
  destruct (env_openfile_err env) as [e|] eqn:Hf.
  { unfold main. rewrite Hi, Ho, Hf, bool_decide_eq_false_2 by exact Hpath.
    rewrite setupCSVLog_error. do 2 eexists. split; [reflexivity|]. left. reflexivity. }
  destruct (main_logging path env fs Hpath) as (evs & Hm & _); [repeat split; assumption|].
  do 2 eexists. split; [exact Hm|]. right. repeat split; assumption.
Qed.

(** X13: the program touches no file but the log: every other path holds
    after the run what it held before, and the log file is only ever
    appended to: what it held before is a prefix of what it holds after. *)
Theorem only_the_log_is_appended (path : string) (env : Env) (fs : FileSys) :
  exists fs' evs,
    main path env fs = Some (fs', evs) /\
    (forall other, other = path \/ fs' !! other = fs !! other) /\
    (forall rows, fs !! path <> Some rows \/
                  exists more, fs' !! path = Some (rows ++ more)).
Proof.
  destruct (main_cases path env fs) as (fs' & evs & Hm & [->|(Hpath & _ & ->)]).
  - exists fs, evs. split; [exact Hm|]. split; [right; reflexivity|].
    intros rows. destruct (decide (fs !! path = Some rows)) as [H|H]; [|left; exact H].
    right. exists []. rewrite app_nil_r. exact H.
  - do 2 eexists. split; [exact Hm|]. split.
    + intros other. destruct (decide (other = path)) as [->|Hne]; [left; reflexivity|].
      right. simpl. unfold append_rows. rewrite lookup_alter_ne by congruence.
      apply setupCSVLog_other, Hne.
    + intros rows. destruct (decide (fs !! path = Some rows)) as [H|H]; [|left; exact H].
      right. rewrite (setupCSVLog_existing _ _ _ H). simpl. unfold append_rows.
      rewrite lookup_alter_eq, H. simpl. eauto.
Qed.

(** X14: logging to a file that is already there, even an empty one, writes
    no header: after the run the file holds its old rows followed by one row
    per Reading published. *)
Theorem existing_log_gets_no_header (path : string) (env : Env) (fs : FileSys)
  (rows : list (list string))
  (Hpath : path <> "") (Hrun : starts env) (Hthere : fs !! path = Some rows) :
  exists fs' evs,
    main path env fs = Some (fs', evs) /\
    fs' !! path = Some (rows ++ map csv_row (published evs)).
Proof.
  destruct (main_logging path env fs Hpath Hrun) as (evs & Hm & _).
  rewrite (setupCSVLog_existing _ _ _ Hthere) in Hm. simpl in Hm.
  do 2 eexists. split; [exact Hm|].
  unfold append_rows. rewrite lookup_alter_eq, Hthere. reflexivity.
Qed.

Lemma existing_log_gets_no_header_witness :
  exists fs' evs,
    main "a.csv" env_a (<["a.csv" := []]> ∅) = Some (fs', evs) /\
    fs' !! "a.csv" = Some ([] ++ map csv_row (published evs)).
Proof.
  apply (existing_log_gets_no_header "a.csv" env_a (<["a.csv" := []]> ∅) []);
    [discriminate | repeat split | reflexivity].
Defined.

(** X15: when the log file cannot be opened the program stops at once: it
    has announced the connection, reports the failure and ends without a
    single command to the device and without touching the file system. *)
Theorem log_open_failure_is_fatal (path e : string) (env : Env) (fs : FileSys)
  (Hpath : path <> "")
  (Hinit : env_init_err env = None) (Hopen : env_open_err env = None)
  (Hfile : env_openfile_err env = Some e) :
  main path env fs =
  Some (fs, [Printed "Connected to GM1356 Decibel Meter";
             Fatal ("Failed to open log file: " +:+ e)]).
Proof.
  unfold main. rewrite Hinit, Hopen, Hfile, bool_decide_eq_false_2 by exact Hpath.
  reflexivity.
Qed.

Lemma log_open_failure_is_fatal_witness :
  main "a.csv" env_no_file ∅ =
  Some (∅, [Printed "Connected to GM1356 Decibel Meter";
            Fatal ("Failed to open log file: " +:+ "permission denied")]).
Proof.
  apply (log_open_failure_is_fatal "a.csv" "permission denied" env_no_file ∅);
    [discriminate | reflexivity | reflexivity | reflexivity].
Defined.

(** X16: the outcome of the initial mode probe changes nothing but its own
    report: with any other answer of the device to the probe the program
    publishes the same Readings and leaves the same file system. *)
Theorem probe_outcome_does_not_matter (path : string) (env : Env) (probe : Exchange)
  (fs : FileSys) :
  exists fs' evs evs',
    main path env fs = Some (fs', evs) /\
    main path (env_with_probe env probe) fs = Some (fs', evs') /\
    published evs = published evs'.
Proof.
  unfold main, env_with_probe. simpl.
  destruct (env_init_err env); [do 3 eexists; split; [|split]; reflexivity|].
  destruct (env_open_err env); [do 3 eexists; split; [|split]; reflexivity|].
  destruct (if bool_decide (path = "") then _ else _) as [fs1 [err|w]];
    [do 3 eexists; split; [|split]; reflexivity|].
  destruct (readCurrentMode_total (env_probe env)) as (p & ev1 & Hp & Hpub & _).
  destruct (readCurrentMode_total probe) as (p' & ev1' & Hp' & Hpub' & _).
  rewrite Hp, Hp'. simpl.
  destruct (readDecibelData_total w (env_ticks env) fs1) as (r & Hr & _).
  rewrite Hr. simpl. do 3 eexists. split; [reflexivity|]. split; [reflexivity|].
  repeat match goal with
         | |- context [published (?x :: ?l)] =>
             change (published (x :: l)) with (published ([x] ++ l))
         end.
  rewrite !published_app, Hpub, Hpub'. simpl.
  destruct (pr_err p), (pr_err p'); reflexivity.
Qed.

(** ** The timestamp *)

Lemma forallb_below (P : Z -> bool) (n : Z) :
  forallb (fun k => P (Z.of_nat k)) (seq 0 (Z.to_nat n)) = true ->
  forall x, 0 <= x < n -> P x = true.
Proof.
  intros H x Hx. rewrite forallb_forall in H.
  rewrite <- (Z2Nat.id x) by lia. apply H, in_seq. lia.
Qed.

Lemma appendInt_two_digits (x : Z) :
  0 <= x <= 99 -> digits_exactly 2 (appendInt x 2) = true.
Proof.
  intros H. apply (forallb_below (fun x => digits_exactly 2 (appendInt x 2)) 100);
    [vm_compute; reflexivity | lia].
Qed.

Lemma appendInt_four_digits (x : Z) :
  0 <= x <= 9999 -> digits_exactly 4 (appendInt x 4) = true.
Proof.
  intros H. apply (forallb_below (fun x => digits_exactly 4 (appendInt x 4)) 10000);
    [vm_compute; reflexivity | lia].
Qed.

Lemma two_digits_inv (s : string) :
  digits_exactly 2 s = true ->
  exists a b, s = String a (String b "") /\ is_digit a = true /\ is_digit b = true.
Proof.
  destruct s as [|a [|b [|c s]]]; simpl; try discriminate.
  - rewrite andb_false_r. discriminate.
  - rewrite andb_true_r. intros [Ha Hb]%andb_prop. eauto.
  - rewrite !andb_false_r. discriminate.
Qed.

Lemma four_digits_inv (s : string) :
  digits_exactly 4 s = true ->
  exists a b c d, s = String a (String b (String c (String d ""))) /\
                  is_digit a = true /\ is_digit b = true /\
                  is_digit c = true /\ is_digit d = true.
Proof.
  destruct s as [|a [|b [|c [|d [|e s]]]]]; simpl; rewrite ?andb_false_r;
    try discriminate.
  rewrite andb_true_r.
  intros [Ha [Hb [Hc Hd]%andb_prop]%andb_prop]%andb_prop. do 4 eexists. eauto.
Qed.

(** X17: for every calendar time with a year of four digits the timestamp
    has the fixed shape YYYY-MM-DD HH:MM:SS UTC: 23 characters, digits at the
    fourteen digit places. *)
Theorem timestamp_has_fixed_shape (t : Time) (Hwf : wf_time t) :
  timestamp_shaped (format_timestamp t) = true /\
  String.length (format_timestamp t) = 23%nat.
Proof.
  destruct Hwf as (Hy & Hm & Hd & Hh & Hn & Hs).
  destruct (four_digits_inv _ (appendInt_four_digits (t_year t) Hy))
    as (y1 & y2 & y3 & y4 & Ey & ? & ? & ? & ?).
  destruct (two_digits_inv _ (appendInt_two_digits (t_month t) ltac:(lia)))
    as (m1 & m2 & Em & ? & ?).
  destruct (two_digits_inv _ (appendInt_two_digits (t_day t) ltac:(lia)))
    as (d1 & d2 & Ed & ? & ?).
  destruct (two_digits_inv _ (appendInt_two_digits (t_hour t) ltac:(lia)))
    as (h1 & h2 & Eh & ? & ?).
  destruct (two_digits_inv _ (appendInt_two_digits (t_minute t) ltac:(lia)))
    as (n1 & n2 & En & ? & ?).
  destruct (two_digits_inv _ (appendInt_two_digits (t_second t) ltac:(lia)))
    as (s1 & s2 & Es & ? & ?).
  unfold format_timestamp. rewrite Ey, Em, Ed, Eh, En, Es. simpl.
  split; [|reflexivity].
  repeat match goal with H : is_digit _ = true |- _ => rewrite H; clear H end.
  reflexivity.
Qed.

Lemma timestamp_has_fixed_shape_witness :
  timestamp_shaped (format_timestamp clock_0) = true /\
  String.length (format_timestamp clock_0) = 23%nat.
Proof.
  apply (timestamp_has_fixed_shape clock_0). unfold wf_time, clock_0. simpl. lia.
Defined.
